(** * The scheduler report client of nova (nova/scheduler/client/report.py)

    A shallow embedding of [SchedulerReportClient] and of the [safe_connect]
    decorator.  The client object, the calls it makes on its keystone
    session and the records it hands to the logger are threaded through a
    state-and-exception monad; the placement service behind the session is
    a section variable. *)

From Stdlib Require Import ZArith.
From stdpp Require Import base option gmap strings list.

Local Open Scope Z_scope.
Local Open Scope string_scope.
Local Open Scope list_scope.

(** ** Python values *)

(** The values that travel through the client untyped: the [name] argument,
    the fields read from a JSON body, the arguments of a log call. *)
Inductive pyval : Type :=
| PyNone
| PyStr (s : string)
| PyInt (n : Z).

#[global] Instance pyval_eq_dec : EqDecision pyval.
Proof. solve_decision. Defined.

(** Python truth value testing: [None], the empty string and zero are
    falsy. *)
Definition truthy (v : pyval) : bool :=
  match v with
  | PyNone => false
  | PyStr s => negb (String.eqb s "")
  | PyInt n => negb (Z.eqb n 0)
  end.

(** [a or b] *)
Definition py_or (a b : pyval) : pyval := if truthy a then a else b.

(** Modelled from the spec: [objects.ResourceProvider] is declared in
    nova.objects, outside this file.  The spec's Remote Record has an
    identifier, a display name and a generation; the constructor is called
    with exactly these three keyword arguments, which the record keeps as
    they are passed. *)
Record ResourceProvider : Type := mkResourceProvider {
  rp_uuid : string;
  rp_name : pyval;
  rp_generation : pyval
}.

(** ** Exceptions *)

(** The three keystoneauth1 classes the decorator names, [KeyError] for a
    failed subscript, and every other class by its name.  An exception of
    a subclass of one of the first three is caught by the same clause and
    is represented by that clause's class. *)
Inductive exn : Type :=
| EndpointNotFound
| MissingAuthPlugin
| ConnectFailure
| KeyError (key : string)
| OtherException (cls : string).

#[global] Instance exn_eq_dec : EqDecision exn.
Proof. solve_decision. Defined.

(** Modelled from the spec: [nova.objects.ComputeNode] is the Local Entity
    supplied by the caller.  The client reads [uuid] and
    [hypervisor_hostname] and calls [save()], which belongs to the
    persistence layer: [cn_save] is the exception that call raises, if it
    raises one. *)
Record ComputeNode : Type := mkComputeNode {
  cn_uuid : string;
  cn_hypervisor_hostname : pyval;
  cn_save : option exn
}.

(** ** The session boundary *)

(** What [requests] gives back with [raise_exc=False]: the status, the
    parsed body ([None] when [resp.json()] cannot decode it) and the raw
    text. *)
Record response : Type := mkResponse {
  status_code : Z;
  json : option (gmap string pyval);
  text : string
}.

(** A call on [self._client]; the [endpoint_filter] and [raise_exc=False]
    keyword arguments are the same on every call. *)
Inductive request : Type :=
| GET (url : string)
| POST (url : string) (data : gmap string pyval).

Inductive outcome : Type :=
| Responds (resp : response)
| Fails (e : exn).

(** ** Log records *)

Inductive log_record : Type :=
| LogWarning (msg : string)
| LogInfo (msg : string) (format_args : list pyval)
| LogError (msg : string) (args : gmap string pyval).

(** ** State *)

(** The two attributes of the client object, followed by the two
    observable traces: the calls made on the session, oldest first, and
    the records handed to [LOG]. *)
Record state : Type := mkState {
  _resource_providers : gmap string ResourceProvider;
  _disabled : bool;
  calls : list request;
  log : list log_record
}.

(** [__init__] *)
Definition init : state :=
  {| _resource_providers := ∅; _disabled := false; calls := []; log := [] |}.

(** ** The monad: state with exceptions *)

Inductive result (A : Type) : Type :=
| Return (a : A)
| Raise (e : exn).
Arguments Return {A} a.
Arguments Raise {A} e.

Definition M (A : Type) : Type := state → result A * state.

#[global] Instance M_ret : MRet M := λ A a s, (Return a, s).

#[global] Instance M_bind : MBind M := λ A B k m s,
  match m s with
  | (Return a, s') => k a s'
  | (Raise e, s') => (Raise e, s')
  end.

Definition raise {A} (e : exn) : M A := λ s, (Raise e, s).
Definition gets {A} (f : state → A) : M A := λ s, (Return (f s), s).
Definition modify (f : state → state) : M unit := λ s, (Return tt, f s).

(** [try: body except ...:] where [handler] selects the matching clause. *)
Definition try_except {A} (body : M A) (handler : exn → option (M A)) : M A :=
  λ s,
    match body s with
    | (Return a, s') => (Return a, s')
    | (Raise e, s') =>
        match handler e with
        | Some h => h s'
        | None => (Raise e, s')
        end
    end.

(** The four ways the client changes the state. *)
Definition set_disabled (b : bool) (s : state) : state :=
  {| _resource_providers := _resource_providers s;
     _disabled := b; calls := calls s; log := log s |}.

Definition store (uuid : string) (rp : ResourceProvider) (s : state) : state :=
  {| _resource_providers := <[uuid := rp]> (_resource_providers s);
     _disabled := _disabled s; calls := calls s; log := log s |}.

Definition add_log (r : log_record) (s : state) : state :=
  {| _resource_providers := _resource_providers s;
     _disabled := _disabled s; calls := calls s; log := log s ++ [r] |}.

Definition record_call (r : request) (s : state) : state :=
  {| _resource_providers := _resource_providers s;
     _disabled := _disabled s; calls := calls s ++ [r]; log := log s |}.

(** [LOG.warning], [LOG.info], [LOG.error] *)
Definition emit (r : log_record) : M unit := modify (add_log r).

(** [resp.json()] *)
Definition resp_json (resp : response) : M (gmap string pyval) :=
  match json resp with
  | Some data => mret data
  | None => raise (OtherException "ValueError")
  end.

(** [data[key]] *)
Definition getitem (data : gmap string pyval) (key : string) : M pyval :=
  match data !! key with
  | Some v => mret v
  | None => raise (KeyError key)
  end.

(** ** Messages *)

Definition msg_endpoint_not_found : string :=
  "The placement API endpoint not found. Optional use of placement API for reporting is now disabled.".
Definition msg_missing_auth : string :=
  "No authentication information found for placement API. Optional use of placement API for reporting is now disabled.".
Definition msg_not_responding : string :=
  "Placement API service is not responding.".
Definition msg_get_failed : string :=
  "Failed to retrieve resource provider record from placement API for UUID %(uuid)s. Got %(status_code)d: %(err_text)s.".
Definition msg_created : string :=
  "Created resource provider record via placement API for resource provider with UUID {0} and name {1}.".
Definition msg_already_created : string :=
  "Another thread already created a resource provider with the UUID {0}. Grabbing that record from the placement API.".
Definition msg_create_failed : string :=
  "Failed to create resource provider record in placement API for UUID %(uuid)s. Got %(status_code)d: %(err_text)s.".

Definition error_args (uuid : string) (resp : response) : gmap string pyval :=
  {[ "uuid" := PyStr uuid;
     "status_code" := PyInt (status_code resp);
     "err_text" := PyStr (text resp) ]}.

(** ** Sample placement services

    Scripts for [self._client] used to run the client on concrete inputs:
    each says what a call gives after the calls in [history]. *)

Definition provider_body (name : string) (generation : Z) : gmap string pyval :=
  {[ "name" := PyStr name; "generation" := PyInt generation ]}.

(** No record yet, creation succeeds. *)
Definition svc_fresh (history : list request) (r : request) : outcome :=
  match r with
  | GET _ => Responds (mkResponse 404 None "not found")
  | POST _ data => Responds (mkResponse 201 (Some data) "")
  end.

(** The record exists. *)
Definition svc_found (history : list request) (r : request) : outcome :=
  match r with
  | GET _ => Responds (mkResponse 200 (Some (provider_body "host-b" 4)) "")
  | POST _ _ => Responds (mkResponse 409 None "conflict")
  end.

(** Another creator wins the race between our fetch and our create. *)
Definition svc_race (history : list request) (r : request) : outcome :=
  match r, history with
  | GET _, [] => Responds (mkResponse 404 None "not found")
  | GET _, _ => Responds (mkResponse 200 (Some (provider_body "host-c-other" 2)) "")
  | POST _ _, _ => Responds (mkResponse 409 None "conflict")
  end.

(** The service is down for the first two calls and up afterwards. *)
Definition svc_flaky (history : list request) (r : request) : outcome :=
  match history with
  | [] | [_] => Fails ConnectFailure
  | _ =>
      match r with
      | GET _ => Responds (mkResponse 200 (Some (provider_body "host-d" 7)) "")
      | POST _ _ => Responds (mkResponse 409 None "conflict")
      end
  end.

(** No placement endpoint in the service catalog. *)
Definition svc_no_endpoint (history : list request) (r : request) : outcome :=
  Fails EndpointNotFound.

(** The service answers every call with an internal error. *)
Definition svc_broken (history : list request) (r : request) : outcome :=
  Responds (mkResponse 500 None "internal error").

(** A 200 whose JSON body has no "name". *)
Definition svc_nameless (history : list request) (r : request) : outcome :=
  Responds (mkResponse 200 (Some {[ "generation" := PyInt 3 ]}) "").

(** The fetch meets an internal error, the create succeeds. *)
Definition svc_fetch_broken (history : list request) (r : request) : outcome :=
  match r with
  | GET _ => Responds (mkResponse 500 None "internal error")
  | POST _ data => Responds (mkResponse 201 (Some data) "")
  end.

(** ** The client *)

Section Client.

(** The keystone session behind [self._client], with the placement
    service at the other end: what a call gives, as a function of the
    calls made before it. *)
Variable _client : list request → request → outcome.

(** A call on the session: it is recorded, and answers or raises. *)
Definition session_call (r : request) : M response := λ s,
  match _client (calls s) r with
  | Responds resp => (Return resp, record_call r s)
  | Fails e => (Raise e, record_call r s)
  end.

(** [get], lines 74-77 *)
Definition get (url : string) : M response := session_call (GET url).

(** [post], lines 79-86 *)
Definition post (url : string) (data : gmap string pyval) : M response :=
  session_call (POST url data).

(** [safe_connect], lines 31-53.  The flag is read inside the [try];
    a clause that ends without [return] gives [None]. *)
Definition safe_connect {A} (f : M (option A)) : M (option A) :=
  try_except
    (disabled ← gets _disabled;
     if disabled : bool then mret None else f)
    (λ e,
       match e with
       | EndpointNotFound =>
           Some (emit (LogWarning msg_endpoint_not_found);;
                 modify (set_disabled true);;
                 mret None)
       | MissingAuthPlugin =>
           Some (emit (LogWarning msg_missing_auth);;
                 modify (set_disabled true);;
                 mret None)
       | ConnectFailure =>
           Some (emit (LogWarning msg_not_responding);;
                 mret None)
       | _ => None
       end).

(** [_get_resource_provider], lines 88-117 *)
Definition _get_resource_provider (uuid : string) : M (option ResourceProvider) :=
  safe_connect
    (resp ← get ("/resource_providers/" +:+ uuid);
     if decide (status_code resp = 200) then
       data ← resp_json resp;
       name ← getitem data "name";
       generation ← getitem data "generation";
       mret (Some {| rp_uuid := uuid; rp_name := name;
                     rp_generation := generation |})
     else if decide (status_code resp = 404) then
       mret None
     else
       emit (LogError msg_get_failed (error_args uuid resp));;
       mret None).

(** [_create_resource_provider], lines 119-164 *)
Definition _create_resource_provider (uuid : string) (name : pyval)
  : M (option ResourceProvider) :=
  safe_connect
    (let url := "/resource_providers" in
     let payload : gmap string pyval :=
       {[ "uuid" := PyStr uuid; "name" := name ]} in
     resp ← post url payload;
     if decide (status_code resp = 201) then
       emit (LogInfo msg_created [PyStr uuid; name]);;
       mret (Some {| rp_uuid := uuid; rp_name := name;
                     rp_generation := PyInt 1 |})
     else if decide (status_code resp = 409) then
       emit (LogInfo msg_already_created [PyStr uuid]);;
       _get_resource_provider uuid
     else
       emit (LogError msg_create_failed (error_args uuid resp));;
       mret None).

(** [_ensure_resource_provider], lines 166-192; [name] is [PyNone] when
    the caller leaves it out. *)
Definition _ensure_resource_provider (uuid : string) (name : pyval)
  : M (option ResourceProvider) :=
  cache ← gets _resource_providers;
  match cache !! uuid with
  | Some rp => mret (Some rp)
  | None =>
      rp ← _get_resource_provider uuid;
      match rp with
      | None =>
          let name := py_or name (PyStr uuid) in
          rp ← _create_resource_provider uuid name;
          match rp with
          | None => mret None
          | Some rp => modify (store uuid rp);; mret (Some rp)
          end
      | Some rp => modify (store uuid rp);; mret (Some rp)
      end
  end.

(** [compute_node.save()] *)
Definition save (compute_node : ComputeNode) : M unit :=
  match cn_save compute_node with
  | None => mret tt
  | Some e => raise e
  end.

(** [update_resource_stats], lines 194-201 *)
Definition update_resource_stats (compute_node : ComputeNode) : M unit :=
  save compute_node;;
  _ensure_resource_provider (cn_uuid compute_node)
                            (cn_hypervisor_hostname compute_node);;
  mret tt.

(** ** Sequences of calls on one client object *)

(** What a caller can invoke.  [Call_wrapped] is any other operation under
    the decorator. *)
Inductive op : Type :=
| Call_get (uuid : string)
| Call_create (uuid : string) (name : pyval)
| Call_ensure (uuid : string) (name : pyval)
| Call_update (compute_node : ComputeNode)
| Call_wrapped (A : Type) (f : M (option A)).

(** The state a call leaves behind, whether it returns or raises. *)
Definition step (s : state) (o : op) : state :=
  match o with
  | Call_get uuid => snd (_get_resource_provider uuid s)
  | Call_create uuid name => snd (_create_resource_provider uuid name s)
  | Call_ensure uuid name => snd (_ensure_resource_provider uuid name s)
  | Call_update compute_node => snd (update_resource_stats compute_node s)
  | Call_wrapped A f => snd (safe_connect f s)
  end.

Definition steps (ops : list op) (s : state) : state := fold_left step ops s.

(** Some calls on a client, as a caller may make them in a row. *)
Definition sample_calls : list op :=
  [Call_ensure "rp-1" (PyStr "host-a");
   Call_get "rp-2";
   Call_create "rp-1" (PyStr "host-z");
   Call_update {| cn_uuid := "rp-3"; cn_hypervisor_hostname := PyNone;
                  cn_save := None |};
   Call_ensure "rp-1" PyNone].

(** The classes named by the [except] clauses of the decorator. *)
Definition caught (e : exn) : bool :=
  match e with
  | EndpointNotFound | MissingAuthPlugin | ConnectFailure => true
  | _ => false
  end.

(** The warning each clause logs. *)
Definition warning_of (e : exn) : string :=
  match e with
  | EndpointNotFound => msg_endpoint_not_found
  | MissingAuthPlugin => msg_missing_auth
  | _ => msg_not_responding
  end.

(** What [_ensure_resource_provider] does with the outcome of its create
    step. *)
Definition cache_result (uuid : string)
    (r : result (option ResourceProvider) * state)
  : result (option ResourceProvider) * state :=
  match r with
  | (Return (Some rp), s) => (Return (Some rp), store uuid rp s)
  | _ => r
  end.

(** The URL of the fetch and the body of the create request. *)
Definition provider_url (uuid : string) : string := "/resource_providers/" +:+ uuid.

Definition create_payload (uuid : string) (name : pyval) : gmap string pyval :=
  {[ "uuid" := PyStr uuid; "name" := name ]}.

(** The calls that are methods of the client, as against an arbitrary
    operation put under the decorator. *)
Definition is_method (o : op) : bool :=
  match o with
  | Call_wrapped _ _ => false
  | _ => true
  end.

(** The outcomes of a session call after which the decorator sets the
    flag. *)
Definition trips (o : outcome) : bool :=
  match o with
  | Fails EndpointNotFound | Fails MissingAuthPlugin => true
  | _ => false
  end.

(** [s'] is a later state of the client that forgot nothing of [s]: the
    cache kept its entries, a set flag is still set, and the two traces
    were only appended to. *)
Definition extends (s s' : state) : Prop :=
  _resource_providers s ⊆ _resource_providers s'
  ∧ (_disabled s = true → _disabled s' = true)
  ∧ calls s `prefix_of` calls s'
  ∧ log s `prefix_of` log s'.

(** Every cache entry is filed under the identifier of its record. *)
Definition cache_keyed (s : state) : Prop :=
  map_Forall (λ uuid rp, rp_uuid rp = uuid) (_resource_providers s).

(** The requests of one Ensure that goes all the way: fetch, create,
    fetch again. *)
Definition ensure_requests (uuid : string) (name : pyval) : list request :=
  [GET (provider_url uuid);
   POST "/resource_providers" (create_payload uuid (py_or name (PyStr uuid)));
   GET (provider_url uuid)].

(** ** The monad's equations *)

Lemma bind_Return {A B} (m : M A) (k : A → M B) s a s' :
  m s = (Return a, s') → (m ≫= k) s = k a s'.
Proof. intros H. unfold mbind, M_bind. by rewrite H. Qed.

Lemma bind_Raise {A B} (m : M A) (k : A → M B) s e s' :
  m s = (Raise e, s') → (m ≫= k) s = (Raise e, s').
Proof. intros H. unfold mbind, M_bind. by rewrite H. Qed.

(** ** The decorator *)

Lemma safe_connect_disabled {A} (f : M (option A)) s :
  _disabled s = true → safe_connect f s = (Return None, s).
Proof.
  intros H. unfold safe_connect, try_except, gets, mbind, M_bind.
  by rewrite H.
Qed.

Lemma safe_connect_Return {A} (f : M (option A)) s a s' :
  _disabled s = false → f s = (Return a, s') →
  safe_connect f s = (Return a, s').
Proof.
  intros H Hf. unfold safe_connect, try_except, gets, mbind, M_bind.
  by rewrite H, Hf.
Qed.

Lemma safe_connect_Raise {A} (f : M (option A)) s e s' :
  _disabled s = false → f s = (Raise e, s') →
  safe_connect f s =
    match e with
    | EndpointNotFound | MissingAuthPlugin =>
        (Return None, set_disabled true (add_log (LogWarning (warning_of e)) s'))
    | ConnectFailure =>
        (Return None, add_log (LogWarning (warning_of e)) s')
    | _ => (Raise e, s')
    end.
Proof.
  intros H Hf. unfold safe_connect, try_except, gets, mbind, M_bind.
  rewrite H, Hf. by destruct e.
Qed.

(** The decorator lets through only what it has no clause for. *)
Lemma safe_connect_raises {A} (f : M (option A)) s e s' :
  safe_connect f s = (Raise e, s') → caught e = false.
Proof.
  destruct (_disabled s) eqn:Hd.
  - by rewrite safe_connect_disabled.
  - destruct (f s) as [[a|e0] s0] eqn:Hf.
    + by rewrite (safe_connect_Return _ _ _ _ Hd Hf).
    + rewrite (safe_connect_Raise _ _ _ _ Hd Hf).
      destruct e0; intros [= <- _]; done.
Qed.

(** ** Fetch and create *)

Ltac unfold_M :=
  unfold try_except, get, post, session_call, resp_json, getitem, emit,
    modify, gets, raise, mbind, M_bind, mret, M_ret in *.

(** Case analysis on everything a wrapped body looks at. *)
Ltac run_body :=
  unfold_M; simpl in *;
  repeat match goal with
    | |- context [_client ?h ?r] => destruct (_client h r) as [?resp|?e] eqn:?
    | |- context [decide ?P] => destruct (decide P)
    | |- context [json ?r] => destruct (json r) as [?data|] eqn:?
    | |- context [@lookup _ _ (gmap string pyval) _ ?k ?m] =>
        destruct (@lookup _ _ (gmap string pyval) _ k m) eqn:?
    | e : exn |- _ => destruct e
    end; simpl in *.

Lemma get_disabled uuid s :
  _disabled s = true → _get_resource_provider uuid s = (Return None, s).
Proof. apply safe_connect_disabled. Qed.

Lemma create_disabled uuid name s :
  _disabled s = true → _create_resource_provider uuid name s = (Return None, s).
Proof. apply safe_connect_disabled. Qed.

Lemma get_raises uuid s e s' :
  _get_resource_provider uuid s = (Raise e, s') → caught e = false.
Proof. apply safe_connect_raises. Qed.


(** Neither operation touches the cache. *)
Lemma get_cache uuid s :
  _resource_providers (snd (_get_resource_provider uuid s)) = _resource_providers s.
Proof.
  destruct (_disabled s) eqn:Hd; [by rewrite get_disabled|].
  unfold _get_resource_provider, safe_connect.
  unfold_M. rewrite Hd. run_body; done.
Qed.

Lemma create_cache uuid name s :
  _resource_providers (snd (_create_resource_provider uuid name s)) =
  _resource_providers s.
Proof.
  destruct (_disabled s) eqn:Hd; [by rewrite create_disabled|].
  unfold _create_resource_provider, safe_connect at 1.
  unfold_M. rewrite Hd. simpl.
  destruct (_client _ _) as [resp|e]; simpl; [|by destruct e].
  repeat case_decide; simpl; try done.
  match goal with
  | |- context [_get_resource_provider uuid ?s0] =>
      pose proof (get_cache uuid s0) as Hc;
      destruct (_get_resource_provider uuid s0) as [[a|e] s1] eqn:Hg
  end; simpl in *; [done|].
  apply get_raises in Hg. by destruct e.
Qed.

(** What the fetch does once the session has answered. *)
Lemma get_responds uuid s resp :
  _disabled s = false →
  _client (calls s) (GET (provider_url uuid)) = Responds resp →
  _get_resource_provider uuid s =
    let s' := record_call (GET (provider_url uuid)) s in
    if decide (status_code resp = 200) then
      match json resp with
      | None => (Raise (OtherException "ValueError"), s')
      | Some data =>
          match data !! "name", data !! "generation" with
          | Some name, Some generation =>
              (Return (Some (mkResourceProvider uuid name generation)), s')
          | None, _ => (Raise (KeyError "name"), s')
          | _, None => (Raise (KeyError "generation"), s')
          end
      end
    else if decide (status_code resp = 404) then (Return None, s')
    else (Return None, add_log (LogError msg_get_failed (error_args uuid resp)) s').
Proof.
  intros Hd Hc. unfold _get_resource_provider, safe_connect, provider_url in *.
  unfold_M. rewrite Hd. simpl. rewrite Hc. simpl.
  repeat case_decide; simpl; try done.
  destruct (json resp) as [data|]; simpl; [|done].
  destruct (data !! "name"); simpl; [|done].
  by destruct (data !! "generation").
Qed.

Lemma get_fails uuid s e :
  _disabled s = false →
  _client (calls s) (GET (provider_url uuid)) = Fails e →
  _get_resource_provider uuid s =
    let s' := record_call (GET (provider_url uuid)) s in
    match e with
    | EndpointNotFound | MissingAuthPlugin =>
        (Return None, set_disabled true (add_log (LogWarning (warning_of e)) s'))
    | ConnectFailure => (Return None, add_log (LogWarning (warning_of e)) s')
    | _ => (Raise e, s')
    end.
Proof.
  intros Hd Hc. unfold _get_resource_provider.
  erewrite safe_connect_Raise; [done..|].
  unfold_M. unfold provider_url in Hc. by rewrite Hc.
Qed.

(** C7: with the circuit enabled and an answer from the session, the fetch
    returns on status 200 the record made of the requested identifier and
    of the name and generation of the response body, on status 404 nothing,
    and on every other status nothing after logging an error that carries
    the identifier, the status code and the response text. *)
Theorem get_resource_provider_by_status uuid s resp :
  _disabled s = false →
  _client (calls s) (GET (provider_url uuid)) = Responds resp →
  let s' := record_call (GET (provider_url uuid)) s in
  (∀ data name generation,
     status_code resp = 200 →
     json resp = Some data →
     data !! "name" = Some name →
     data !! "generation" = Some generation →
     _get_resource_provider uuid s =
       (Return (Some {| rp_uuid := uuid; rp_name := name;
                        rp_generation := generation |}), s'))
  ∧ (status_code resp = 404 →
     _get_resource_provider uuid s = (Return None, s'))
  ∧ (status_code resp ≠ 200 → status_code resp ≠ 404 →
     _get_resource_provider uuid s =
       (Return None,
        add_log (LogError msg_get_failed
                   {[ "uuid" := PyStr uuid;
                      "status_code" := PyInt (status_code resp);
                      "err_text" := PyStr (text resp) ]}) s')).
Proof.
  intros Hd Hc s'. rewrite (get_responds _ _ _ Hd Hc). fold s'.
  split; [|split].
  - intros data name generation H200 Hj Hn Hg.
    rewrite decide_True by done. by rewrite Hj, Hn, Hg.
  - intros H404. rewrite decide_False by lia. by rewrite decide_True.
  - intros H200 H404. by rewrite !decide_False.
Qed.

(** What the create does once the session has answered. *)
Lemma create_responds uuid name s resp :
  _disabled s = false →
  _client (calls s) (POST "/resource_providers" (create_payload uuid name))
    = Responds resp →
  _create_resource_provider uuid name s =
    let s' := record_call (POST "/resource_providers" (create_payload uuid name)) s in
    if decide (status_code resp = 201) then
      (Return (Some (mkResourceProvider uuid name (PyInt 1))),
       add_log (LogInfo msg_created [PyStr uuid; name]) s')
    else if decide (status_code resp = 409) then
      _get_resource_provider uuid
        (add_log (LogInfo msg_already_created [PyStr uuid]) s')
    else
      (Return None, add_log (LogError msg_create_failed (error_args uuid resp)) s').
Proof.
  intros Hd Hc. unfold _create_resource_provider, safe_connect at 1.
  unfold create_payload in *.
  unfold_M. rewrite Hd. simpl. rewrite Hc. simpl.
  repeat case_decide; simpl; try done.
  match goal with
  | |- context [_get_resource_provider uuid ?s0] =>
      destruct (_get_resource_provider uuid s0) as [[a|e] s1] eqn:Hg
  end; [done|].
  apply get_raises in Hg. by destruct e.
Qed.

Lemma create_fails uuid name s e :
  _disabled s = false →
  _client (calls s) (POST "/resource_providers" (create_payload uuid name))
    = Fails e →
  _create_resource_provider uuid name s =
    let s' := record_call (POST "/resource_providers" (create_payload uuid name)) s in
    match e with
    | EndpointNotFound | MissingAuthPlugin =>
        (Return None, set_disabled true (add_log (LogWarning (warning_of e)) s'))
    | ConnectFailure => (Return None, add_log (LogWarning (warning_of e)) s')
    | _ => (Raise e, s')
    end.
Proof.
  intros Hd Hc. unfold _create_resource_provider.
  erewrite safe_connect_Raise; [done..|].
  unfold_M. unfold create_payload in Hc. simpl. by rewrite Hc.
Qed.

(** ** Ensure *)

Lemma ensure_hit uuid name s rp :
  _resource_providers s !! uuid = Some rp →
  _ensure_resource_provider uuid name s = (Return (Some rp), s).
Proof.
  intros H. unfold _ensure_resource_provider. unfold_M. by rewrite H.
Qed.

(** On a miss: fetch, then create with the effective name when the fetch
    gave nothing, then cache what was found or created. *)
Lemma ensure_miss uuid name s :
  _resource_providers s !! uuid = None →
  _ensure_resource_provider uuid name s =
    match _get_resource_provider uuid s with
    | (Return (Some rp), s0) => (Return (Some rp), store uuid rp s0)
    | (Return None, s0) =>
        cache_result uuid
          (_create_resource_provider uuid (py_or name (PyStr uuid)) s0)
    | (Raise e, s0) => (Raise e, s0)
    end.
Proof.
  intros H. unfold _ensure_resource_provider, cache_result. unfold_M.
  rewrite H.
  destruct (_get_resource_provider uuid s) as [[[rp|]|e] s0]; try done.
  by destruct (_create_resource_provider _ _ s0) as [[[rp|]|e] s1].
Qed.

(** C1: when the create request is answered with status 409, the create
    operation is the fetch of the same identifier run right after the
    request and the log record of the race, result and state alike; and an
    Ensure whose own fetch gave nothing and whose create step met the 409
    returns the result of that second fetch, caching it when it is a
    record. *)
Theorem create_conflict_returns_fetch uuid name s resp :
  _disabled s = false →
  _client (calls s) (POST "/resource_providers" (create_payload uuid name))
    = Responds resp →
  status_code resp = 409 →
  let s1 := add_log (LogInfo msg_already_created [PyStr uuid])
              (record_call (POST "/resource_providers" (create_payload uuid name)) s) in
  _create_resource_provider uuid name s = _get_resource_provider uuid s1
  ∧ ∀ name0 s0,
      _resource_providers s0 !! uuid = None →
      _get_resource_provider uuid s0 = (Return None, s) →
      py_or name0 (PyStr uuid) = name →
      fst (_ensure_resource_provider uuid name0 s0)
        = fst (_get_resource_provider uuid s1)
      ∧ snd (_ensure_resource_provider uuid name0 s0)
        = match fst (_get_resource_provider uuid s1) with
          | Return (Some rp) => store uuid rp (snd (_get_resource_provider uuid s1))
          | _ => snd (_get_resource_provider uuid s1)
          end.
Proof.
  intros Hd Hc H409 s1.
  assert (Hcreate : _create_resource_provider uuid name s =
                    _get_resource_provider uuid s1).
  { rewrite (create_responds _ _ _ _ Hd Hc). simpl.
    rewrite decide_False by lia. by rewrite decide_True. }
  split; [done|].
  intros name0 s0 Hmiss Hget Hname.
  rewrite (ensure_miss _ _ _ Hmiss), Hget, Hname, Hcreate.
  unfold cache_result.
  by destruct (_get_resource_provider uuid s1) as [[[rp|]|e] s2].
Qed.

(** C3: on a cache miss with the circuit enabled, when the fetch is
    answered with 404 and the create request with 201, Ensure returns the
    record with the requested identifier, the effective name (the name
    given, or the identifier when the name is falsy) and generation 1, and
    the cache afterwards holds that record under the identifier. *)
Theorem ensure_fetch_404_create_201 uuid name s r1 r2 :
  _resource_providers s !! uuid = None →
  _disabled s = false →
  _client (calls s) (GET (provider_url uuid)) = Responds r1 →
  status_code r1 = 404 →
  _client (calls s ++ [GET (provider_url uuid)])
          (POST "/resource_providers"
                (create_payload uuid (py_or name (PyStr uuid)))) = Responds r2 →
  status_code r2 = 201 →
  let rp := {| rp_uuid := uuid; rp_name := py_or name (PyStr uuid);
               rp_generation := PyInt 1 |} in
  (truthy name = true → rp_name rp = name)
  ∧ (name = PyNone → rp_name rp = PyStr uuid)
  ∧ ∃ s',
      _ensure_resource_provider uuid name s = (Return (Some rp), s')
      ∧ _resource_providers s' = <[uuid := rp]> (_resource_providers s)
      ∧ _resource_providers s' !! uuid = Some rp
      ∧ calls s' = calls s ++ [GET (provider_url uuid);
                               POST "/resource_providers"
                                 (create_payload uuid (py_or name (PyStr uuid)))].
Proof.
  intros Hmiss Hd Hget H404 Hpost H201 rp.
  split; [by intros Ht; simpl; unfold py_or; rewrite Ht|].
  split; [by intros ->|].
  rewrite (ensure_miss _ _ _ Hmiss), (get_responds _ _ _ Hd Hget). simpl.
  rewrite decide_False by lia. rewrite decide_True by done.
  rewrite (create_responds _ _ _ r2) by done. simpl.
  rewrite decide_True by done. simpl.
  eexists. split; [done|]. simpl.
  split; [done|]. split; [by rewrite lookup_insert_eq|].
  by rewrite <- app_assoc.
Qed.

(** A successful Ensure leaves its result in the cache. *)
Lemma ensure_Some_cached uuid name s rp s' :
  _ensure_resource_provider uuid name s = (Return (Some rp), s') →
  _resource_providers s' !! uuid = Some rp.
Proof.
  destruct (_resource_providers s !! uuid) as [rp0|] eqn:Hc.
  - rewrite (ensure_hit _ _ _ _ Hc). by intros [= <- <-].
  - rewrite (ensure_miss _ _ _ Hc).
    destruct (_get_resource_provider uuid s) as [[[rp1|]|e] s0]; [| |done].
    + intros [= <- <-]. apply lookup_insert_eq.
    + unfold cache_result.
      destruct (_create_resource_provider _ _ s0) as [[[rp1|]|e] s1]; try done.
      intros [= <- <-]. apply lookup_insert_eq.
Qed.

(** With the circuit disabled Ensure is a cache lookup. *)
Lemma ensure_disabled uuid name s :
  _disabled s = true →
  _ensure_resource_provider uuid name s = (Return (_resource_providers s !! uuid), s).
Proof.
  intros Hd. destruct (_resource_providers s !! uuid) as [rp|] eqn:Hc.
  - by apply ensure_hit.
  - rewrite (ensure_miss _ _ _ Hc), get_disabled by done.
    by rewrite create_disabled.
Qed.

(** C4: when the identifier is in the cache, and in particular in the
    state left by an earlier successful Ensure of the same identifier,
    Ensure returns the cached record and leaves the state as it was: no
    call is made on the session, neither fetch nor create. *)
Theorem ensure_cached_no_remote_call uuid name s rp :
  (_resource_providers s !! uuid = Some rp
   ∨ ∃ name0 s0, _ensure_resource_provider uuid name0 s0 = (Return (Some rp), s)) →
  _ensure_resource_provider uuid name s = (Return (Some rp), s)
  ∧ calls (snd (_ensure_resource_provider uuid name s)) = calls s.
Proof.
  intros H.
  assert (Hc : _resource_providers s !! uuid = Some rp).
  { destruct H as [H|(name0 & s0 & H)]; [done|].
    by eapply ensure_Some_cached. }
  by rewrite (ensure_hit _ _ _ _ Hc).
Qed.

(** C8: on a cache miss, when the fetch gives nothing and the create step
    gives nothing either, Ensure returns nothing and the cache is what it
    was, with no entry under the identifier. *)
Theorem ensure_absent_caches_nothing uuid name s s0 s1 :
  _resource_providers s !! uuid = None →
  _get_resource_provider uuid s = (Return None, s0) →
  _create_resource_provider uuid (py_or name (PyStr uuid)) s0 = (Return None, s1) →
  _ensure_resource_provider uuid name s = (Return None, s1)
  ∧ _resource_providers s1 = _resource_providers s
  ∧ _resource_providers s1 !! uuid = None.
Proof.
  intros Hmiss Hget Hcreate.
  assert (Hframe : _resource_providers s1 = _resource_providers s).
  { pose proof (get_cache uuid s) as H0.
    pose proof (create_cache uuid (py_or name (PyStr uuid)) s0) as H1.
    rewrite Hget in H0. rewrite Hcreate in H1. simpl in *. congruence. }
  rewrite (ensure_miss _ _ _ Hmiss), Hget, Hcreate. simpl.
  by rewrite Hframe.
Qed.

(** C9: when Ensure reaches its create step with a falsy name ([None] or
    the empty string among them), the create operation runs with the
    identifier as the name, and with the circuit enabled the request it
    sends carries the identifier in both fields. *)
Theorem ensure_falsy_name_is_uuid uuid name s s0 :
  truthy name = false →
  _resource_providers s !! uuid = None →
  _get_resource_provider uuid s = (Return None, s0) →
  _ensure_resource_provider uuid name s
    = cache_result uuid (_create_resource_provider uuid (PyStr uuid) s0)
  ∧ (_disabled s0 = false →
     ∃ later,
       calls (snd (_ensure_resource_provider uuid name s))
       = calls s0
         ++ POST "/resource_providers"
              {[ "uuid" := PyStr uuid; "name" := PyStr uuid ]} :: later).
Proof.
  intros Hfalsy Hmiss Hget.
  assert (Heq : _ensure_resource_provider uuid name s
                = cache_result uuid (_create_resource_provider uuid (PyStr uuid) s0)).
  { rewrite (ensure_miss _ _ _ Hmiss), Hget. unfold py_or. by rewrite Hfalsy. }
  split; [done|].
  intros Hd. rewrite Heq. clear Heq.
  set (r := POST "/resource_providers" {[ "uuid" := PyStr uuid; "name" := PyStr uuid ]}).
  destruct (_client (calls s0) r) as [resp|e] eqn:Hc.
  - rewrite (create_responds _ _ _ resp) by done. simpl. fold r.
    destruct (decide (status_code resp = 201)) as [H201|H201];
      [exists nil; reflexivity|].
    destruct (decide (status_code resp = 409)) as [H409|H409];
      [|exists nil; reflexivity].
    set (s1 := add_log _ _).
    assert (Hs1 : calls s1 = calls s0 ++ [r]) by done.
    assert (Hd1 : _disabled s1 = false) by done.
    destruct (_client (calls s1) (GET (provider_url uuid))) as [resp'|e] eqn:Hc'.
    + rewrite (get_responds _ _ _ Hd1 Hc'). simpl.
      exists [GET (provider_url uuid)].
      repeat case_decide; simpl;
        repeat (case_match; simpl); rewrite ?Hs1, <- ?app_assoc; done.
    + rewrite (get_fails _ _ _ Hd1 Hc'). simpl.
      exists [GET (provider_url uuid)].
      destruct e; simpl; rewrite ?Hs1, <- ?app_assoc; done.
  - rewrite (create_fails _ _ _ e) by done. simpl. fold r.
    exists nil. destruct e; reflexivity.
Qed.

(** C10: with the circuit disabled, Ensure still returns the cached record
    for an identifier in the cache, returns nothing for an identifier that
    is not, and changes nothing either way. *)
Theorem ensure_disabled_serves_cache uuid name s :
  _disabled s = true →
  (∀ rp, _resource_providers s !! uuid = Some rp →
         _ensure_resource_provider uuid name s = (Return (Some rp), s))
  ∧ (_resource_providers s !! uuid = None →
     _ensure_resource_provider uuid name s = (Return None, s)).
Proof.
  intros Hd. rewrite (ensure_disabled _ _ _ Hd).
  split; [intros rp H|intros H]; by rewrite H.
Qed.

(** ** The circuit breaker *)

Lemma update_disabled compute_node s :
  _disabled s = true →
  snd (update_resource_stats compute_node s) = s.
Proof.
  intros Hd. unfold update_resource_stats, save.
  destruct (cn_save compute_node) as [e|]; [done|].
  unfold_M. by rewrite ensure_disabled.
Qed.

(** Once the flag is set, no call changes the state at all. *)
Lemma step_disabled s o : _disabled s = true → step s o = s.
Proof.
  intros Hd. destruct o; simpl.
  - by rewrite get_disabled.
  - by rewrite create_disabled.
  - by rewrite ensure_disabled.
  - by apply update_disabled.
  - by rewrite safe_connect_disabled.
Qed.

Lemma steps_disabled ops s : _disabled s = true → steps ops s = s.
Proof.
  intros Hd. unfold steps. induction ops as [|o ops IH]; simpl; [done|].
  by rewrite step_disabled.
Qed.

(** C2: when an operation under the decorator raises the
    endpoint-not-found or the missing-credentials fault, the decorator
    returns nothing and sets the disabled flag; after any sequence of later
    calls on the client the flag is still set, no call has been made on
    the session, and every decorated operation, the fetch and the create of
    any identifier among them, returns nothing at once. *)
Theorem circuit_trips_for_good {A} (f : M (option A)) e s s' :
  e = EndpointNotFound ∨ e = MissingAuthPlugin →
  _disabled s = false →
  f s = (Raise e, s') →
  let s1 := set_disabled true (add_log (LogWarning (warning_of e)) s') in
  safe_connect f s = (Return None, s1)
  ∧ _disabled s1 = true
  ∧ ∀ ops,
      let s2 := steps ops s1 in
      _disabled s2 = true
      ∧ calls s2 = calls s1
      ∧ (∀ B (g : M (option B)), safe_connect g s2 = (Return None, s2))
      ∧ (∀ uuid, _get_resource_provider uuid s2 = (Return None, s2))
      ∧ (∀ uuid name, _create_resource_provider uuid name s2 = (Return None, s2)).
Proof.
  intros He Hd Hf s1. split; [|split; [done|]].
  - rewrite (safe_connect_Raise _ _ _ _ Hd Hf). by destruct He as [->| ->].
  - intros ops s2. unfold s2. rewrite steps_disabled by done.
    repeat split; intros; by apply safe_connect_disabled.
Qed.

(** C6: with the circuit enabled, an operation under the decorator that
    raises the connection fault returns nothing, one warning is logged and
    the flag is not written; for the fetch and the create the circuit
    stays enabled.  An Ensure that met the fault on both of its requests
    returns nothing and caches nothing, and the next Ensure of the same
    identifier sends its fetch and returns the record the service then
    answers with. *)
Theorem connect_failure_is_transient s :
  _disabled s = false →
  (∀ A (f : M (option A)) s',
     f s = (Raise ConnectFailure, s') →
     safe_connect f s = (Return None, add_log (LogWarning msg_not_responding) s')
     ∧ _disabled (snd (safe_connect f s)) = _disabled s')
  ∧ (∀ uuid,
       _client (calls s) (GET (provider_url uuid)) = Fails ConnectFailure →
       _get_resource_provider uuid s
         = (Return None,
            add_log (LogWarning msg_not_responding)
              (record_call (GET (provider_url uuid)) s))
       ∧ _disabled (snd (_get_resource_provider uuid s)) = false)
  ∧ (∀ uuid name,
       _client (calls s) (POST "/resource_providers" (create_payload uuid name))
         = Fails ConnectFailure →
       _create_resource_provider uuid name s
         = (Return None,
            add_log (LogWarning msg_not_responding)
              (record_call (POST "/resource_providers" (create_payload uuid name)) s))
       ∧ _disabled (snd (_create_resource_provider uuid name s)) = false)
  ∧ (∀ uuid name,
       _resource_providers s !! uuid = None →
       _client (calls s) (GET (provider_url uuid)) = Fails ConnectFailure →
       _client (calls s ++ [GET (provider_url uuid)])
               (POST "/resource_providers"
                     (create_payload uuid (py_or name (PyStr uuid))))
         = Fails ConnectFailure →
       ∃ s1,
         _ensure_resource_provider uuid name s = (Return None, s1)
         ∧ _disabled s1 = false
         ∧ _resource_providers s1 = _resource_providers s
         ∧ log s1 = log s ++ [LogWarning msg_not_responding;
                              LogWarning msg_not_responding]
         ∧ ∀ name' resp data n g,
             _client (calls s1) (GET (provider_url uuid)) = Responds resp →
             status_code resp = 200 →
             json resp = Some data →
             data !! "name" = Some n →
             data !! "generation" = Some g →
             _ensure_resource_provider uuid name' s1
               = (Return (Some (mkResourceProvider uuid n g)),
                  store uuid (mkResourceProvider uuid n g)
                    (record_call (GET (provider_url uuid)) s1))).
Proof.
  intros Hd. repeat split.
  - by rewrite (safe_connect_Raise _ _ _ _ Hd H).
  - by rewrite (safe_connect_Raise _ _ _ _ Hd H).
  - by rewrite (get_fails _ _ _ Hd H).
  - by rewrite (get_fails _ _ _ Hd H).
  - by rewrite (create_fails _ _ _ _ Hd H).
  - by rewrite (create_fails _ _ _ _ Hd H).
  - intros uuid name Hmiss Hget Hpost.
    rewrite (ensure_miss _ _ _ Hmiss), (get_fails _ _ _ Hd Hget). simpl.
    rewrite (create_fails _ _ _ ConnectFailure) by done. simpl.
    eexists. split; [done|]. simpl.
    split; [done|]. split; [done|]. split; [by rewrite <- app_assoc|].
    intros name' resp data n g Hresp H200 Hj Hn Hg.
    rewrite ensure_miss by done.
    rewrite (get_responds _ _ resp) by done. simpl.
    rewrite decide_True by done. by rewrite Hj, Hn, Hg.
Qed.

(** ** What crosses the public boundary *)

Section WellBehavedSession.

(** The session raises only the faults the decorator names, and a 200 to
    a fetch carries a JSON body with both fields. *)
Hypothesis session_faults : ∀ history r e,
  _client history r = Fails e → caught e = true.
Hypothesis session_bodies : ∀ history url resp,
  _client history (GET url) = Responds resp →
  status_code resp = 200 →
  ∃ data, json resp = Some data
          ∧ is_Some (data !! "name") ∧ is_Some (data !! "generation").




End WellBehavedSession.



(** ** Beyond the claims: the decorator and the two requests *)

(** X12: decorating an operation twice is decorating it once. *)
Theorem safe_connect_idempotent {A} (f : M (option A)) s :
  safe_connect (safe_connect f) s = safe_connect f s.
Proof.
  destruct (_disabled s) eqn:Hd.
  - by rewrite !safe_connect_disabled.
  - destruct (safe_connect f s) as [[a|e] s'] eqn:Hf.
    + by apply safe_connect_Return.
    + rewrite (safe_connect_Raise _ _ _ _ Hd Hf).
      apply safe_connect_raises in Hf. by destruct e.
Qed.

(** X8: with the circuit enabled and an answer to the POST, the create
    returns on 201 the record with the name it was given and generation 1
    after one info record, and on a status that is neither 201 nor 409
    nothing after one error record with identifier, status and text; it
    sends no second request and writes no cache entry in either case. *)
Theorem create_resource_provider_by_status uuid name s resp :
  _disabled s = false →
  _client (calls s) (POST "/resource_providers"
                          {[ "uuid" := PyStr uuid; "name" := name ]})
    = Responds resp →
  let s' := record_call (POST "/resource_providers"
                              {[ "uuid" := PyStr uuid; "name" := name ]}) s in
  (status_code resp = 201 →
   _create_resource_provider uuid name s
   = (Return (Some {| rp_uuid := uuid; rp_name := name;
                      rp_generation := PyInt 1 |}),
      add_log (LogInfo msg_created [PyStr uuid; name]) s'))
  ∧ (status_code resp ≠ 201 → status_code resp ≠ 409 →
     _create_resource_provider uuid name s
     = (Return None,
        add_log (LogError msg_create_failed
                   {[ "uuid" := PyStr uuid;
                      "status_code" := PyInt (status_code resp);
                      "err_text" := PyStr (text resp) ]}) s'))
  ∧ (status_code resp ≠ 409 →
     calls (snd (_create_resource_provider uuid name s)) = calls s' 
     ∧ _resource_providers (snd (_create_resource_provider uuid name s))
       = _resource_providers s).
Proof.
  intros Hd Hc s'. rewrite (create_responds _ _ _ _ Hd Hc). simpl.
  split; [|split].
  - intros H201. by rewrite decide_True.
  - intros H201 H409. by rewrite !decide_False.
  - intros H409. rewrite (decide_False (P:=status_code resp = 409)) by done.
    by case_decide.
Qed.

(** X7: a 200 to the fetch whose body cannot be decoded, or lacks "name",
    or has "name" but lacks "generation", makes the fetch raise
    [ValueError], [KeyError] on "name" (also when "generation" is missing
    as well) and [KeyError] on "generation"; the decorator lets these
    through, the call stays recorded, and an Ensure that missed the cache
    raises the same exception and caches nothing. *)
Theorem get_malformed_body_raises uuid s resp :
  _disabled s = false →
  _client (calls s) (GET (provider_url uuid)) = Responds resp →
  status_code resp = 200 →
  let s' := record_call (GET (provider_url uuid)) s in
  let raises e :=
    _get_resource_provider uuid s = (Raise e, s')
    ∧ ∀ name, _resource_providers s !! uuid = None →
        _ensure_resource_provider uuid name s = (Raise e, s') in
  (json resp = None → raises (OtherException "ValueError"))
  ∧ (∀ data, json resp = Some data →
       data !! "name" = None → raises (KeyError "name"))
  ∧ (∀ data n, json resp = Some data →
       data !! "name" = Some n → data !! "generation" = None →
       raises (KeyError "generation")).
Proof.
  intros Hd Hc H200 s' raises.
  assert (Hens : ∀ e, _get_resource_provider uuid s = (Raise e, s') → raises e).
  { intros e Hget. split; [done|]. intros name Hmiss.
    by rewrite (ensure_miss _ _ _ Hmiss), Hget. }
  pose proof (get_responds _ _ _ Hd Hc) as Hget. simpl in Hget.
  rewrite decide_True in Hget by done. fold s' in Hget.
  split; [|split].
  - intros Hj. apply Hens. by rewrite Hget, Hj.
  - intros data Hj Hn. apply Hens. by rewrite Hget, Hj, Hn.
  - intros data n Hj Hn Hg. apply Hens. by rewrite Hget, Hj, Hn, Hg.
Qed.

(** ** Beyond the claims: what a client never forgets *)

Lemma extends_refl s : extends s s.
Proof. by repeat split. Qed.

Lemma extends_trans s1 s2 s3 : extends s1 s2 → extends s2 s3 → extends s1 s3.
Proof.
  intros (Hc1 & Hd1 & Hr1 & Hl1) (Hc2 & Hd2 & Hr2 & Hl2).
  repeat split; [by etrans|auto|by etrans|by etrans].
Qed.

Lemma extends_record_call s s' r : extends s s' → extends s (record_call r s').
Proof.
  intros (Hc & Hd & Hr & Hl). repeat split; simpl; [done..| |done].
  by apply prefix_app_r.
Qed.

Lemma extends_add_log s s' r : extends s s' → extends s (add_log r s').
Proof.
  intros (Hc & Hd & Hr & Hl). repeat split; simpl; [done..|].
  by apply prefix_app_r.
Qed.

Lemma extends_trip s s' : extends s s' → extends s (set_disabled true s').
Proof. intros (Hc & Hd & Hr & Hl). by repeat split. Qed.

Lemma extends_store s s' uuid rp :
  _resource_providers s' !! uuid = None →
  extends s s' → extends s (store uuid rp s').
Proof.
  intros Hmiss (Hc & Hd & Hr & Hl). repeat split; simpl; [|done..].
  etrans; [done|]. by apply insert_subseteq.
Qed.

Ltac extend :=
  repeat first [ apply extends_refl | apply extends_add_log
               | apply extends_record_call | apply extends_trip ].

Lemma get_extends uuid s : extends s (snd (_get_resource_provider uuid s)).
Proof.
  destruct (_disabled s) eqn:Hd; [rewrite get_disabled by done; extend|].
  destruct (_client (calls s) (GET (provider_url uuid))) as [resp|e] eqn:Hc.
  - rewrite (get_responds _ _ _ Hd Hc). simpl.
    repeat (case_decide || case_match); simpl; extend.
  - rewrite (get_fails _ _ _ Hd Hc). destruct e; simpl; extend.
Qed.

Lemma create_extends uuid name s :
  extends s (snd (_create_resource_provider uuid name s)).
Proof.
  destruct (_disabled s) eqn:Hd; [rewrite create_disabled by done; extend|].
  destruct (_client (calls s)
              (POST "/resource_providers" (create_payload uuid name)))
    as [resp|e] eqn:Hc.
  - rewrite (create_responds _ _ _ _ Hd Hc). simpl.
    repeat case_decide; simpl; try by extend.
    eapply extends_trans; [|apply get_extends]. extend.
  - rewrite (create_fails _ _ _ _ Hd Hc). destruct e; simpl; extend.
Qed.

Lemma ensure_cache uuid name s :
  _resource_providers (snd (_ensure_resource_provider uuid name s))
  = match fst (_ensure_resource_provider uuid name s) with
    | Return (Some rp) => <[uuid := rp]> (_resource_providers s)
    | _ => _resource_providers s
    end.
Proof.
  destruct (_resource_providers s !! uuid) as [rp|] eqn:Hc.
  - rewrite (ensure_hit _ _ _ _ Hc). simpl. by rewrite insert_id.
  - rewrite (ensure_miss _ _ _ Hc).
    pose proof (get_cache uuid s) as Hg.
    destruct (_get_resource_provider uuid s) as [[[rp|]|e] s0]; simpl in *;
      [by rewrite Hg| |done].
    pose proof (create_cache uuid (py_or name (PyStr uuid)) s0) as Hcr.
    unfold cache_result.
    destruct (_create_resource_provider _ _ s0) as [[[rp|]|e] s1];
      simpl in *; by rewrite Hcr, Hg.
Qed.

Lemma ensure_None_miss uuid name s s' :
  _ensure_resource_provider uuid name s = (Return None, s') →
  _resource_providers s !! uuid = None.
Proof.
  destruct (_resource_providers s !! uuid) as [rp|] eqn:Hc; [|done].
  by rewrite (ensure_hit _ _ _ _ Hc).
Qed.

Lemma ensure_extends uuid name s :
  extends s (snd (_ensure_resource_provider uuid name s)).
Proof.
  destruct (_resource_providers s !! uuid) as [rp|] eqn:Hc.
  - rewrite (ensure_hit _ _ _ _ Hc). extend.
  - rewrite (ensure_miss _ _ _ Hc).
    pose proof (get_cache uuid s) as Hg. pose proof (get_extends uuid s) as He.
    destruct (_get_resource_provider uuid s) as [[[rp|]|e] s0]; simpl in *;
      [apply extends_store; congruence| |done].
    pose proof (create_cache uuid (py_or name (PyStr uuid)) s0) as Hcr.
    pose proof (create_extends uuid (py_or name (PyStr uuid)) s0) as Hce.
    unfold cache_result.
    destruct (_create_resource_provider _ _ s0) as [[[rp|]|e] s1]; simpl in *;
      try by eapply extends_trans.
    apply extends_store; [congruence|by eapply extends_trans].
Qed.

Lemma update_extends compute_node s :
  extends s (snd (update_resource_stats compute_node s)).
Proof.
  unfold update_resource_stats, save.
  destruct (cn_save compute_node) as [e|]; [extend|].
  unfold_M.
  pose proof (ensure_extends (cn_uuid compute_node)
                (cn_hypervisor_hostname compute_node) s) as He.
  by destruct (_ensure_resource_provider _ _ s) as [[r|e] s'].
Qed.

Lemma step_extends s o : is_method o = true → extends s (step s o).
Proof.
  destruct o; simpl; [intros _..|done].
  - apply get_extends.
  - apply create_extends.
  - apply ensure_extends.
  - apply update_extends.
Qed.

Lemma steps_extends ops s :
  Forall (λ o, is_method o = true) ops → extends s (steps ops s).
Proof.
  intros Hops. revert s. unfold steps.
  induction Hops as [|o ops Ho Hops IH]; intros s; simpl; [extend|].
  eapply extends_trans; [by apply step_extends|apply IH].
Qed.

(** X13: over any sequence of calls of the client's methods the calls made
    on the session and the log are only appended to, a set flag stays set,
    and every cache entry stays what it is. *)
Theorem client_history_grows ops s :
  Forall (λ o, is_method o = true) ops →
  calls s `prefix_of` calls (steps ops s)
  ∧ log s `prefix_of` log (steps ops s)
  ∧ (_disabled s = true → _disabled (steps ops s) = true)
  ∧ ∀ uuid rp, _resource_providers s !! uuid = Some rp →
               _resource_providers (steps ops s) !! uuid = Some rp.
Proof.
  intros Hops. destruct (steps_extends ops s Hops) as (Hc & Hd & Hr & Hl).
  repeat split; try done.
  intros uuid rp Hrp. by eapply lookup_weaken.
Qed.

(** X2: a record that Ensure returned once is returned by every later
    Ensure of the same identifier, whatever the name given and whatever
    the methods called in between, without any call on the session: the
    cache entry is never refreshed. *)
Theorem ensure_result_is_stable uuid name s rp s1 ops name' :
  _ensure_resource_provider uuid name s = (Return (Some rp), s1) →
  Forall (λ o, is_method o = true) ops →
  _ensure_resource_provider uuid name' (steps ops s1)
  = (Return (Some rp), steps ops s1).
Proof.
  intros He Hops. apply ensure_hit.
  destruct (steps_extends ops s1 Hops) as (Hc & _).
  eapply lookup_weaken; [|done]. by eapply ensure_Some_cached.
Qed.

(** X9: Ensure writes the cache exactly when it returns a record, and
    then only the entry of the requested identifier; whenever it returns,
    what it returned is what the cache then holds for that identifier. *)
Theorem ensure_result_is_cache_entry uuid name s :
  let r := fst (_ensure_resource_provider uuid name s) in
  let s' := snd (_ensure_resource_provider uuid name s) in
  _resource_providers s'
  = match r with
    | Return (Some rp) => <[uuid := rp]> (_resource_providers s)
    | _ => _resource_providers s
    end
  ∧ ∀ o, r = Return o → _resource_providers s' !! uuid = o.
Proof.
  intros r s'. split; [apply ensure_cache|].
  intros o Hr. subst r s'. rewrite ensure_cache.
  destruct (_ensure_resource_provider uuid name s) as [r0 s0] eqn:He.
  simpl in *. subst r0. destruct o as [rp|].
  - apply lookup_insert_eq.
  - by eapply ensure_None_miss.
Qed.

(** ** Beyond the claims: identifiers, requests, the flag *)

Lemma get_Some_uuid uuid s rp s' :
  _get_resource_provider uuid s = (Return (Some rp), s') → rp_uuid rp = uuid.
Proof.
  destruct (_disabled s) eqn:Hd; [by rewrite get_disabled|].
  destruct (_client (calls s) (GET (provider_url uuid))) as [resp|e] eqn:Hc.
  - rewrite (get_responds _ _ _ Hd Hc). simpl.
    repeat (case_decide || case_match); try done. by intros [= <- _].
  - rewrite (get_fails _ _ _ Hd Hc). by destruct e.
Qed.

Lemma create_Some_uuid uuid name s rp s' :
  _create_resource_provider uuid name s = (Return (Some rp), s') →
  rp_uuid rp = uuid.
Proof.
  destruct (_disabled s) eqn:Hd; [by rewrite create_disabled|].
  destruct (_client (calls s)
              (POST "/resource_providers" (create_payload uuid name)))
    as [resp|e] eqn:Hc.
  - rewrite (create_responds _ _ _ _ Hd Hc). simpl.
    repeat case_decide; try done; [by intros [= <- _]|apply get_Some_uuid].
  - rewrite (create_fails _ _ _ _ Hd Hc). by destruct e.
Qed.

Lemma ensure_Some_uuid uuid name s rp s' :
  cache_keyed s →
  _ensure_resource_provider uuid name s = (Return (Some rp), s') →
  rp_uuid rp = uuid.
Proof.
  intros Hk. destruct (_resource_providers s !! uuid) as [rp0|] eqn:Hc.
  - rewrite (ensure_hit _ _ _ _ Hc). intros [= <- _]. by apply (Hk uuid rp0).
  - rewrite (ensure_miss _ _ _ Hc).
    destruct (_get_resource_provider uuid s) as [[[rp1|]|e] s0] eqn:Hg;
      [| |done].
    + intros [= <- _]. by eapply get_Some_uuid.
    + unfold cache_result.
      destruct (_create_resource_provider _ _ s0) as [[[rp1|]|e] s1] eqn:Hcr;
        try done.
      intros [= <- _]. by eapply create_Some_uuid.
Qed.

Lemma ensure_keyed uuid name s :
  cache_keyed s → cache_keyed (snd (_ensure_resource_provider uuid name s)).
Proof.
  intros Hk. unfold cache_keyed.
  rewrite ensure_cache.
  destruct (_ensure_resource_provider uuid name s) as [[[rp|]|e] s'] eqn:He;
    simpl; try done.
  apply map_Forall_insert_2; [|done]. by eapply ensure_Some_uuid.
Qed.

Lemma step_keyed s o :
  is_method o = true → cache_keyed s → cache_keyed (step s o).
Proof.
  unfold cache_keyed. destruct o; simpl; [intros _ Hk..|done].
  - by rewrite get_cache.
  - by rewrite create_cache.
  - by apply ensure_keyed.
  - unfold update_resource_stats, save.
    destruct (cn_save compute_node) as [e|]; [done|]. unfold_M.
    pose proof (ensure_keyed (cn_uuid compute_node)
                  (cn_hypervisor_hostname compute_node) s Hk) as He.
    by destruct (_ensure_resource_provider _ _ s) as [[r|e] s'].
Qed.

(** X1: a cache whose entries are all filed under the identifier of their
    record stays so over any sequence of calls of the client's methods,
    and every record Ensure then returns carries the identifier it was
    asked for. *)
Theorem cache_stays_keyed ops s :
  cache_keyed s →
  Forall (λ o, is_method o = true) ops →
  cache_keyed (steps ops s)
  ∧ ∀ uuid name rp s',
      _ensure_resource_provider uuid name (steps ops s) = (Return (Some rp), s') →
      rp_uuid rp = uuid.
Proof.
  intros Hk Hops.
  assert (Hk' : cache_keyed (steps ops s)).
  { revert s Hk. unfold steps.
    induction Hops as [|o ops Ho Hops IH]; intros s Hk; simpl; [done|].
    apply IH. by apply step_keyed. }
  split; [done|]. intros uuid name rp s'. by apply ensure_Some_uuid.
Qed.

Lemma get_calls uuid s :
  calls (snd (_get_resource_provider uuid s))
  = if _disabled s then calls s else calls s ++ [GET (provider_url uuid)].
Proof.
  destruct (_disabled s) eqn:Hd; [by rewrite get_disabled|].
  destruct (_client (calls s) (GET (provider_url uuid))) as [resp|e] eqn:Hc.
  - rewrite (get_responds _ _ _ Hd Hc). simpl.
    by repeat (case_decide || case_match).
  - rewrite (get_fails _ _ _ Hd Hc). by destruct e.
Qed.

Lemma create_calls uuid name s :
  ∃ l, calls (snd (_create_resource_provider uuid name s)) = calls s ++ l
       ∧ l `prefix_of` [POST "/resource_providers" (create_payload uuid name);
                        GET (provider_url uuid)].
Proof.
  destruct (_disabled s) eqn:Hd.
  { rewrite create_disabled by done. exists nil.
    split; [by rewrite app_nil_r|apply prefix_nil]. }
  set (r := POST "/resource_providers" (create_payload uuid name)).
  assert (Hone : [r] `prefix_of` [r; GET (provider_url uuid)])
    by (by exists [GET (provider_url uuid)]).
  destruct (_client (calls s) r) as [resp|e] eqn:Hc.
  - rewrite (create_responds _ _ _ _ Hd Hc). simpl. fold r.
    destruct (decide (status_code resp = 201)); [by exists [r]|].
    destruct (decide (status_code resp = 409)); [|by exists [r]].
    rewrite get_calls. simpl. rewrite Hd.
    exists [r; GET (provider_url uuid)]. by rewrite <- app_assoc.
  - rewrite (create_fails _ _ _ _ Hd Hc). simpl. fold r.
    exists [r]. by destruct e.
Qed.

(** X3: the calls one Ensure makes on the session are an initial part of
    fetch, create, fetch: at most three, in that order, after the calls
    made before; it makes none exactly when the identifier is cached or
    the circuit disabled. *)
Theorem ensure_request_order uuid name s :
  ∃ l, calls (snd (_ensure_resource_provider uuid name s)) = calls s ++ l
       ∧ l `prefix_of` ensure_requests uuid name
       ∧ (l = [] ↔ is_Some (_resource_providers s !! uuid) ∨ _disabled s = true).
Proof.
  unfold ensure_requests.
  destruct (_resource_providers s !! uuid) as [rp|] eqn:Hc.
  { rewrite (ensure_hit _ _ _ _ Hc). exists nil.
    split; [by rewrite app_nil_r|]. split; [apply prefix_nil|].
    split; [eauto|done]. }
  destruct (_disabled s) eqn:Hd.
  { rewrite ensure_disabled by done. exists nil.
    split; [by rewrite app_nil_r|]. split; [apply prefix_nil|].
    split; [eauto|done]. }
  assert (Hno : ∀ g (l : list request),
             g :: l = [] ↔ is_Some (@None ResourceProvider) ∨ false = true).
  { intros g l. split; [done|]. intros [[? [=]]|[=]]. }
  rewrite (ensure_miss _ _ _ Hc).
  pose proof (get_calls uuid s) as Hg. rewrite Hd in Hg.
  set (g := GET (provider_url uuid)) in *.
  assert (Hone : ∀ l, [g] `prefix_of` g :: l) by (intros l; by exists l).
  destruct (_get_resource_provider uuid s) as [[[rp|]|e] s0]; simpl in *;
    [by exists [g]| |by exists [g]].
  destruct (create_calls uuid (py_or name (PyStr uuid)) s0) as (l & Hl & Hp).
  exists (g :: l). split; [|split; [by apply prefix_cons|done]].
  unfold cache_result.
  destruct (_create_resource_provider _ _ s0) as [[[rp|]|e] s1]; simpl in *;
    by rewrite Hl, Hg, <- app_assoc.
Qed.

Section NoConfigurationFault.

(** The session never raises the endpoint-not-found or the
    missing-credentials fault. *)
Hypothesis no_trip : ∀ history r, trips (_client history r) = false.

Lemma get_flag uuid s :
  _disabled (snd (_get_resource_provider uuid s)) = _disabled s.
Proof.
  destruct (_disabled s) eqn:Hd; [by rewrite get_disabled|].
  pose proof (no_trip (calls s) (GET (provider_url uuid))) as Ht.
  destruct (_client (calls s) (GET (provider_url uuid))) as [resp|e] eqn:Hc.
  - rewrite (get_responds _ _ _ Hd Hc). simpl.
    by repeat (case_decide || case_match).
  - rewrite (get_fails _ _ _ Hd Hc). by destruct e.
Qed.

Lemma create_flag uuid name s :
  _disabled (snd (_create_resource_provider uuid name s)) = _disabled s.
Proof.
  destruct (_disabled s) eqn:Hd; [by rewrite create_disabled|].
  set (r := POST "/resource_providers" (create_payload uuid name)).
  pose proof (no_trip (calls s) r) as Ht.
  destruct (_client (calls s) r) as [resp|e] eqn:Hc.
  - rewrite (create_responds _ _ _ _ Hd Hc). simpl.
    repeat case_decide; simpl; try done. by rewrite get_flag.
  - rewrite (create_fails _ _ _ _ Hd Hc). by destruct e.
Qed.

Lemma ensure_flag uuid name s :
  _disabled (snd (_ensure_resource_provider uuid name s)) = _disabled s.
Proof.
  destruct (_resource_providers s !! uuid) as [rp|] eqn:Hc.
  - by rewrite (ensure_hit _ _ _ _ Hc).
  - rewrite (ensure_miss _ _ _ Hc).
    pose proof (get_flag uuid s) as Hg.
    destruct (_get_resource_provider uuid s) as [[[rp|]|e] s0]; simpl in *;
      [done| |done].
    pose proof (create_flag uuid (py_or name (PyStr uuid)) s0) as Hcr.
    unfold cache_result.
    destruct (_create_resource_provider _ _ s0) as [[[rp|]|e] s1]; simpl in *;
      congruence.
Qed.

Lemma step_flag s o : is_method o = true → _disabled (step s o) = _disabled s.
Proof.
  destruct o; simpl; [intros _..|done].
  - apply get_flag.
  - apply create_flag.
  - apply ensure_flag.
  - unfold update_resource_stats, save.
    destruct (cn_save compute_node) as [e|]; [done|]. unfold_M.
    pose proof (ensure_flag (cn_uuid compute_node)
                  (cn_hypervisor_hostname compute_node) s) as He.
    by destruct (_ensure_resource_provider _ _ s) as [[r|e] s'].
Qed.

End NoConfigurationFault.

(** X4: as long as the session raises neither the endpoint-not-found nor
    the missing-credentials fault, no sequence of calls of the client's
    methods writes the flag: connection faults, error statuses and
    malformed bodies leave an enabled circuit enabled. *)
Theorem circuit_trips_on_configuration_faults_only ops s :
  (∀ history r, trips (_client history r) = false) →
  Forall (λ o, is_method o = true) ops →
  _disabled (steps ops s) = _disabled s.
Proof.
  intros Ht Hops. revert s. unfold steps.
  induction Hops as [|o ops Ho Hops IH]; intros s; simpl; [done|].
  rewrite IH. by apply step_flag.
Qed.

(** X6: when the fetch of an Ensure that missed the cache raises the
    endpoint-not-found or the missing-credentials fault, Ensure returns
    nothing with the flag set, one warning logged and nothing cached, and
    the create request is not sent: the fetch is its only call. *)
Theorem ensure_trip_at_fetch_skips_create uuid name s e :
  _resource_providers s !! uuid = None →
  _disabled s = false →
  _client (calls s) (GET (provider_url uuid)) = Fails e →
  e = EndpointNotFound ∨ e = MissingAuthPlugin →
  _ensure_resource_provider uuid name s
  = (Return None,
     set_disabled true
       (add_log (LogWarning (warning_of e))
          (record_call (GET (provider_url uuid)) s)))
  ∧ calls (snd (_ensure_resource_provider uuid name s))
    = calls s ++ [GET (provider_url uuid)].
Proof.
  intros Hmiss Hd Hc He.
  assert (Heq : _ensure_resource_provider uuid name s
                = (Return None,
                   set_disabled true
                     (add_log (LogWarning (warning_of e))
                        (record_call (GET (provider_url uuid)) s)))).
  { rewrite (ensure_miss _ _ _ Hmiss), (get_fails _ _ _ Hd Hc).
    destruct He as [-> | ->]; simpl; by rewrite create_disabled. }
  by rewrite Heq.
Qed.

(** X5: Ensure takes a fetch that failed for a fetch that found nothing.
    On a cache miss with the circuit enabled, when the fetch meets the
    connection fault or any status other than 200 (a 500 as well as the
    404) and the create request is then answered with 201, Ensure returns
    and caches the generation-1 record after exactly these two calls. *)
Theorem ensure_creates_after_failed_fetch uuid name s r2 :
  _resource_providers s !! uuid = None →
  _disabled s = false →
  (_client (calls s) (GET (provider_url uuid)) = Fails ConnectFailure
   ∨ ∃ r1, _client (calls s) (GET (provider_url uuid)) = Responds r1
           ∧ status_code r1 ≠ 200) →
  _client (calls s ++ [GET (provider_url uuid)])
          (POST "/resource_providers"
                (create_payload uuid (py_or name (PyStr uuid)))) = Responds r2 →
  status_code r2 = 201 →
  let rp := {| rp_uuid := uuid; rp_name := py_or name (PyStr uuid);
               rp_generation := PyInt 1 |} in
  let s' := snd (_ensure_resource_provider uuid name s) in
  fst (_ensure_resource_provider uuid name s) = Return (Some rp)
  ∧ _resource_providers s' = <[uuid := rp]> (_resource_providers s)
  ∧ calls s' = calls s ++ [GET (provider_url uuid);
                           POST "/resource_providers"
                             (create_payload uuid (py_or name (PyStr uuid)))].
Proof.
  intros Hmiss Hd Hget Hpost H201 rp s'. subst s'.
  rewrite (ensure_miss _ _ _ Hmiss).
  destruct Hget as [Hget|(r1 & Hget & H200)].
  - rewrite (get_fails _ _ _ Hd Hget). simpl.
    rewrite (create_responds _ _ _ r2) by done. simpl.
    rewrite decide_True by done. simpl. by rewrite <- app_assoc.
  - rewrite (get_responds _ _ _ Hd Hget). simpl.
    rewrite decide_False by done.
    destruct (decide (status_code r1 = 404)); simpl;
      rewrite (create_responds _ _ _ r2) by done; simpl;
      rewrite decide_True by done; simpl; by rewrite <- app_assoc.
Qed.

(** X10: on a cache miss with the circuit enabled, when the fetch is
    answered with 200 and a body holding name and generation, Ensure
    returns and caches the record of the body whatever name it was given,
    and the fetch is its only call: no create request is sent. *)
Theorem ensure_found_ignores_name uuid name s resp data n g :
  _resource_providers s !! uuid = None →
  _disabled s = false →
  _client (calls s) (GET (provider_url uuid)) = Responds resp →
  status_code resp = 200 →
  json resp = Some data →
  data !! "name" = Some n →
  data !! "generation" = Some g →
  let rp := {| rp_uuid := uuid; rp_name := n; rp_generation := g |} in
  _ensure_resource_provider uuid name s
  = (Return (Some rp), store uuid rp (record_call (GET (provider_url uuid)) s))
  ∧ calls (snd (_ensure_resource_provider uuid name s))
    = calls s ++ [GET (provider_url uuid)].
Proof.
  intros Hmiss Hd Hc H200 Hj Hn Hg rp.
  assert (Heq : _ensure_resource_provider uuid name s
                = (Return (Some rp),
                   store uuid rp (record_call (GET (provider_url uuid)) s))).
  { rewrite (ensure_miss _ _ _ Hmiss), (get_responds _ _ _ Hd Hc). simpl.
    rewrite decide_True by done. by rewrite Hj, Hn, Hg. }
  by rewrite Heq.
Qed.

(** X11: Synchronize saves the node before anything else.  When
    [save()] raises, the exception leaves with the client untouched: no
    call, no log record, no cache entry.  When it does not, Synchronize is
    the Ensure of the node's uuid under its hypervisor hostname with the
    record dropped: it raises what Ensure raises, and when it returns, the
    cache entry of the uuid is what Ensure returned. *)
Theorem update_resource_stats_saves_first compute_node s :
  (∀ e, cn_save compute_node = Some e →
        update_resource_stats compute_node s = (Raise e, s))
  ∧ (cn_save compute_node = None →
     let ensured := _ensure_resource_provider (cn_uuid compute_node)
                      (cn_hypervisor_hostname compute_node) s in
     snd (update_resource_stats compute_node s) = snd ensured
     ∧ (∀ e, fst (update_resource_stats compute_node s) = Raise e
             ↔ fst ensured = Raise e)
     ∧ (fst (update_resource_stats compute_node s) = Return tt →
        ∃ o, fst ensured = Return o
             ∧ _resource_providers (snd (update_resource_stats compute_node s))
                 !! cn_uuid compute_node = o)).
Proof.
  unfold update_resource_stats, save. split.
  - intros e ->. done.
  - intros ->. unfold_M.
    pose proof (ensure_cache (cn_uuid compute_node)
                  (cn_hypervisor_hostname compute_node) s) as Hc.
    destruct (_ensure_resource_provider _ _ s) as [[o|e] s'] eqn:He;
      simpl in *.
    + split; [done|]. split; [intros e; split; discriminate|].
      intros _. exists o. split; [done|]. rewrite Hc.
      destruct o as [rp|]; [apply lookup_insert_eq|by eapply ensure_None_miss].
    + split; [done|]. split; [intros e0; split; by intros [= <-]|discriminate].
Qed.

(** ** Beyond the claims: a failure leaves a trace *)

Lemma cache_result_None uuid r s' :
  cache_result uuid r = (Return None, s') → r = (Return None, s').
Proof. by destruct r as [[[rp|]|e] s0]. Qed.

Lemma create_None_logged uuid name s s' :
  _disabled s = false →
  _create_resource_provider uuid name s = (Return None, s') →
  (length (log s) < length (log s'))%nat.
Proof.
  intros Hd.
  destruct (_client (calls s)
              (POST "/resource_providers" (create_payload uuid name)))
    as [resp|e] eqn:Hc.
  - rewrite (create_responds _ _ _ _ Hd Hc). simpl.
    repeat case_decide; [done| |].
    + intros Hg.
      match type of Hg with
      | _get_resource_provider uuid ?s1 = _ =>
          destruct (get_extends uuid s1) as (_ & _ & _ & Hl)
      end.
      rewrite Hg in Hl. apply prefix_length in Hl. simpl in Hl.
      rewrite length_app in Hl. simpl in Hl. lia.
    + intros [= <-]. simpl. rewrite length_app. simpl. lia.
  - rewrite (create_fails _ _ _ _ Hd Hc).
    destruct e; simpl; intros [= <-]; simpl; rewrite length_app; simpl; lia.
Qed.

(** X14: an Ensure that misses the cache with the circuit enabled and
    returns nothing has logged at least one record on the way: no
    reconciliation fails in silence. *)
Theorem ensure_absent_is_logged uuid name s s' :
  _resource_providers s !! uuid = None →
  _disabled s = false →
  _ensure_resource_provider uuid name s = (Return None, s') →
  (length (log s) < length (log s'))%nat.
Proof.
  intros Hmiss Hd. rewrite (ensure_miss _ _ _ Hmiss).
  assert (Hlater : ∀ s0,
            (length (log s) < length (log s0))%nat →
            cache_result uuid
              (_create_resource_provider uuid (py_or name (PyStr uuid)) s0)
            = (Return None, s') →
            (length (log s) < length (log s'))%nat).
  { intros s0 Hlt Hcr. apply cache_result_None in Hcr.
    destruct (create_extends uuid (py_or name (PyStr uuid)) s0)
      as (_ & _ & _ & Hl).
    rewrite Hcr in Hl. apply prefix_length in Hl. simpl in Hl. lia. }
  destruct (_client (calls s) (GET (provider_url uuid))) as [resp|e] eqn:Hc.
  - rewrite (get_responds _ _ _ Hd Hc). simpl.
    destruct (decide (status_code resp = 200));
      [by repeat case_match|].
    destruct (decide (status_code resp = 404)).
    + intros Hcr. apply cache_result_None in Hcr.
      by apply create_None_logged in Hcr.
    + apply Hlater. simpl. rewrite length_app. simpl. lia.
  - rewrite (get_fails _ _ _ Hd Hc). cbv zeta.
    destruct e; try done;
      apply Hlater; simpl; rewrite length_app; simpl; lia.
Qed.

End Client.

(** ** The scenarios of the specification, run *)

Example scenario_fetch_404_create_201 :
  fst (_ensure_resource_provider svc_fresh "rp-1" (PyStr "host-a") init)
  = Return (Some (mkResourceProvider "rp-1" (PyStr "host-a") (PyInt 1))).
Proof. vm_compute. reflexivity. Qed.

Example scenario_fetch_200 :
  _ensure_resource_provider svc_found "rp-2" PyNone init
  = (Return (Some (mkResourceProvider "rp-2" (PyStr "host-b") (PyInt 4))),
     store "rp-2" (mkResourceProvider "rp-2" (PyStr "host-b") (PyInt 4))
       (record_call (GET "/resource_providers/rp-2") init)).
Proof. vm_compute. reflexivity. Qed.

Example scenario_create_409 :
  fst (_ensure_resource_provider svc_race "rp-3" (PyStr "host-c") init)
  = Return (Some (mkResourceProvider "rp-3" (PyStr "host-c-other") (PyInt 2))).
Proof. vm_compute. reflexivity. Qed.

Example scenario_error_statuses :
  _ensure_resource_provider svc_broken "rp-6" PyNone init
  = (Return None,
     add_log (LogError msg_create_failed
                (error_args "rp-6" (mkResponse 500 None "internal error")))
       (record_call (POST "/resource_providers"
                       (create_payload "rp-6" (PyStr "rp-6")))
          (add_log (LogError msg_get_failed
                      (error_args "rp-6" (mkResponse 500 None "internal error")))
             (record_call (GET "/resource_providers/rp-6") init)))).
Proof. vm_compute. reflexivity. Qed.

(** ** The theorems at concrete inputs *)

Lemma get_resource_provider_by_status_witness :
  _get_resource_provider svc_found "rp-2" init
  = (Return (Some (mkResourceProvider "rp-2" (PyStr "host-b") (PyInt 4))),
     record_call (GET "/resource_providers/rp-2") init)
  ∧ _get_resource_provider svc_fresh "rp-2" init
    = (Return None, record_call (GET "/resource_providers/rp-2") init)
  ∧ _get_resource_provider svc_broken "rp-2" init
    = (Return None,
       add_log (LogError msg_get_failed
                  {[ "uuid" := PyStr "rp-2"; "status_code" := PyInt 500;
                     "err_text" := PyStr "internal error" ]})
         (record_call (GET "/resource_providers/rp-2") init)).
Proof.
  split; [|split].
  - destruct (get_resource_provider_by_status svc_found "rp-2" init
                (mkResponse 200 (Some (provider_body "host-b" 4)) "")
                eq_refl eq_refl) as (H200 & _ & _).
    apply (H200 (provider_body "host-b" 4)); vm_compute; reflexivity.
  - destruct (get_resource_provider_by_status svc_fresh "rp-2" init
                (mkResponse 404 None "not found")
                eq_refl eq_refl) as (_ & H404 & _).
    apply H404. reflexivity.
  - destruct (get_resource_provider_by_status svc_broken "rp-2" init
                (mkResponse 500 None "internal error")
                eq_refl eq_refl) as (_ & _ & Hother).
    apply Hother; discriminate.
Defined.

Lemma create_conflict_returns_fetch_witness :
  let s := record_call (GET "/resource_providers/rp-3") init in
  _create_resource_provider svc_race "rp-3" (PyStr "host-c") s
  = (Return (Some (mkResourceProvider "rp-3" (PyStr "host-c-other") (PyInt 2))),
     record_call (GET "/resource_providers/rp-3")
       (add_log (LogInfo msg_already_created [PyStr "rp-3"])
          (record_call (POST "/resource_providers"
                          (create_payload "rp-3" (PyStr "host-c"))) s)))
  ∧ fst (_ensure_resource_provider svc_race "rp-3" (PyStr "host-c") init)
    = Return (Some (mkResourceProvider "rp-3" (PyStr "host-c-other") (PyInt 2))).
Proof.
  intros s.
  destruct (create_conflict_returns_fetch svc_race "rp-3" (PyStr "host-c") s
              (mkResponse 409 None "conflict") eq_refl eq_refl eq_refl)
    as [Hcreate Hensure].
  split.
  - rewrite Hcreate. vm_compute. reflexivity.
  - destruct (Hensure (PyStr "host-c") init) as [Hfst _];
      [vm_compute; reflexivity..|].
    rewrite Hfst. vm_compute. reflexivity.
Defined.

Lemma ensure_fetch_404_create_201_witness :
  ∃ s' : state,
    _ensure_resource_provider svc_fresh "rp-1" (PyStr "") init
    = (Return (Some (mkResourceProvider "rp-1" (PyStr "rp-1") (PyInt 1))), s')
    ∧ _resource_providers s'
      = <["rp-1" := mkResourceProvider "rp-1" (PyStr "rp-1") (PyInt 1)]> ∅
    ∧ _resource_providers s' !! "rp-1"
      = Some (mkResourceProvider "rp-1" (PyStr "rp-1") (PyInt 1))
    ∧ calls s' = [GET "/resource_providers/rp-1";
                  POST "/resource_providers" (create_payload "rp-1" (PyStr "rp-1"))].
Proof.
  exact (proj2 (proj2
           (ensure_fetch_404_create_201 svc_fresh "rp-1" (PyStr "") init
              (mkResponse 404 None "not found")
              (mkResponse 201 (Some (create_payload "rp-1" (PyStr "rp-1"))) "")
              eq_refl eq_refl eq_refl eq_refl eq_refl eq_refl))).
Defined.

Lemma ensure_cached_no_remote_call_witness :
  let s := snd (_ensure_resource_provider svc_fresh "rp-1" (PyStr "host-a") init) in
  let rp := mkResourceProvider "rp-1" (PyStr "host-a") (PyInt 1) in
  _ensure_resource_provider svc_fresh "rp-1" PyNone s = (Return (Some rp), s)
  ∧ calls (snd (_ensure_resource_provider svc_fresh "rp-1" PyNone s)) = calls s.
Proof.
  intros s rp. apply ensure_cached_no_remote_call.
  right. exists (PyStr "host-a"), init. vm_compute. reflexivity.
Defined.

Lemma ensure_absent_caches_nothing_witness :
  let s0 := snd (_get_resource_provider svc_broken "rp-6" init) in
  let s1 := snd (_create_resource_provider svc_broken "rp-6" (PyStr "rp-6") s0) in
  _ensure_resource_provider svc_broken "rp-6" PyNone init = (Return None, s1)
  ∧ _resource_providers s1 = _resource_providers init
  ∧ _resource_providers s1 !! "rp-6" = None.
Proof.
  intros s0 s1.
  apply (ensure_absent_caches_nothing svc_broken "rp-6" PyNone init s0 s1);
    vm_compute; reflexivity.
Defined.

Lemma ensure_falsy_name_is_uuid_witness :
  let s0 := record_call (GET "/resource_providers/rp-1") init in
  _ensure_resource_provider svc_fresh "rp-1" (PyStr "") init
  = cache_result "rp-1" (_create_resource_provider svc_fresh "rp-1" (PyStr "rp-1") s0)
  ∧ (_disabled s0 = false →
     ∃ later,
       calls (snd (_ensure_resource_provider svc_fresh "rp-1" (PyStr "") init))
       = calls s0
         ++ POST "/resource_providers"
              {[ "uuid" := PyStr "rp-1"; "name" := PyStr "rp-1" ]} :: later).
Proof.
  intros s0.
  apply (ensure_falsy_name_is_uuid svc_fresh "rp-1" (PyStr "") init s0);
    vm_compute; reflexivity.
Defined.

Lemma ensure_disabled_serves_cache_witness :
  let rp := mkResourceProvider "rp-1" (PyStr "host-a") (PyInt 1) in
  let s := set_disabled true (store "rp-1" rp init) in
  _ensure_resource_provider svc_fresh "rp-1" PyNone s = (Return (Some rp), s)
  ∧ _ensure_resource_provider svc_fresh "rp-9" PyNone s = (Return None, s).
Proof.
  intros rp s. split.
  - apply (ensure_disabled_serves_cache svc_fresh "rp-1" PyNone s eq_refl).
    vm_compute. reflexivity.
  - apply (ensure_disabled_serves_cache svc_fresh "rp-9" PyNone s eq_refl).
    vm_compute. reflexivity.
Defined.

Lemma circuit_trips_for_good_witness :
  let f : M (option ResourceProvider) :=
    session_call svc_no_endpoint (GET "/resource_providers/rp-1") ≫= λ _, mret None in
  let s1 := set_disabled true
              (add_log (LogWarning msg_endpoint_not_found)
                 (record_call (GET "/resource_providers/rp-1") init)) in
  safe_connect f init = (Return None, s1)
  ∧ _disabled s1 = true
  ∧ ∀ ops,
      let s2 := steps svc_no_endpoint ops s1 in
      _disabled s2 = true
      ∧ calls s2 = calls s1
      ∧ (∀ B (g : M (option B)), safe_connect g s2 = (Return None, s2))
      ∧ (∀ uuid, _get_resource_provider svc_no_endpoint uuid s2 = (Return None, s2))
      ∧ (∀ uuid name,
           _create_resource_provider svc_no_endpoint uuid name s2 = (Return None, s2)).
Proof.
  intros f s1.
  exact (circuit_trips_for_good svc_no_endpoint f EndpointNotFound init
           (record_call (GET "/resource_providers/rp-1") init)
           (or_introl eq_refl) eq_refl eq_refl).
Defined.

Lemma connect_failure_is_transient_witness :
  let s1 := snd (_ensure_resource_provider svc_flaky "rp-4" PyNone init) in
  _ensure_resource_provider svc_flaky "rp-4" PyNone init = (Return None, s1)
  ∧ _disabled s1 = false
  ∧ _ensure_resource_provider svc_flaky "rp-4" PyNone s1
    = (Return (Some (mkResourceProvider "rp-4" (PyStr "host-d") (PyInt 7))),
       store "rp-4" (mkResourceProvider "rp-4" (PyStr "host-d") (PyInt 7))
         (record_call (GET "/resource_providers/rp-4") s1)).
Proof.
  intros s1.
  destruct (connect_failure_is_transient svc_flaky init eq_refl)
    as (_ & _ & _ & H).
  destruct (H "rp-4" PyNone eq_refl eq_refl eq_refl)
    as (s1' & He & Hd & _ & _ & Hnext).
  assert (Hs : s1' = s1) by (unfold s1; by rewrite He).
  subst s1'. split; [done|]. split; [done|].
  apply (Hnext PyNone (mkResponse 200 (Some (provider_body "host-d" 7)) "")
           (provider_body "host-d" 7));
    vm_compute; reflexivity.
Defined.


(** ** Exceptions that do cross the boundary *)


(** ** The further theorems at concrete inputs *)

Lemma create_resource_provider_by_status_witness :
  _create_resource_provider svc_fresh "rp-1" (PyStr "host-a") init
  = (Return (Some (mkResourceProvider "rp-1" (PyStr "host-a") (PyInt 1))),
     add_log (LogInfo msg_created [PyStr "rp-1"; PyStr "host-a"])
       (record_call (POST "/resource_providers"
                       {[ "uuid" := PyStr "rp-1"; "name" := PyStr "host-a" ]})
          init))
  ∧ _create_resource_provider svc_broken "rp-1" (PyStr "host-a") init
    = (Return None,
       add_log (LogError msg_create_failed
                  {[ "uuid" := PyStr "rp-1"; "status_code" := PyInt 500;
                     "err_text" := PyStr "internal error" ]})
         (record_call (POST "/resource_providers"
                         {[ "uuid" := PyStr "rp-1"; "name" := PyStr "host-a" ]})
            init)).
Proof.
  split.
  - destruct (create_resource_provider_by_status svc_fresh "rp-1"
                (PyStr "host-a") init
                (mkResponse 201
                   (Some {[ "uuid" := PyStr "rp-1"; "name" := PyStr "host-a" ]}) "")
                eq_refl eq_refl) as (H201 & _ & _).
    apply H201. reflexivity.
  - destruct (create_resource_provider_by_status svc_broken "rp-1"
                (PyStr "host-a") init
                (mkResponse 500 None "internal error")
                eq_refl eq_refl) as (_ & Hother & _).
    apply Hother; discriminate.
Defined.

Lemma get_malformed_body_raises_witness :
  _get_resource_provider svc_nameless "rp-5" init
  = (Raise (KeyError "name"), record_call (GET "/resource_providers/rp-5") init)
  ∧ _ensure_resource_provider svc_nameless "rp-5" (PyStr "host-e") init
    = (Raise (KeyError "name"), record_call (GET "/resource_providers/rp-5") init).
Proof.
  destruct (get_malformed_body_raises svc_nameless "rp-5" init
              (mkResponse 200 (Some {[ "generation" := PyInt 3 ]}) "")
              eq_refl eq_refl eq_refl) as (_ & Hname & _).
  destruct (Hname {[ "generation" := PyInt 3 ]} eq_refl eq_refl) as [Hget Hens].
  split; [exact Hget|]. apply Hens. reflexivity.
Defined.

Lemma sample_calls_are_methods : Forall (λ o, is_method o = true) sample_calls.
Proof. repeat constructor. Defined.

Lemma client_history_grows_witness :
  calls init `prefix_of` calls (steps svc_fresh sample_calls init)
  ∧ log init `prefix_of` log (steps svc_fresh sample_calls init)
  ∧ (_disabled init = true → _disabled (steps svc_fresh sample_calls init) = true)
  ∧ ∀ uuid rp, _resource_providers init !! uuid = Some rp →
               _resource_providers (steps svc_fresh sample_calls init) !! uuid
               = Some rp.
Proof.
  exact (client_history_grows svc_fresh sample_calls init
           sample_calls_are_methods).
Defined.

Lemma ensure_result_is_stable_witness :
  let rp := mkResourceProvider "rp-1" (PyStr "host-a") (PyInt 1) in
  let s1 := snd (_ensure_resource_provider svc_fresh "rp-1" (PyStr "host-a") init) in
  _ensure_resource_provider svc_fresh "rp-1" (PyStr "host-q")
    (steps svc_fresh sample_calls s1)
  = (Return (Some rp), steps svc_fresh sample_calls s1).
Proof.
  intros rp s1.
  apply (ensure_result_is_stable svc_fresh "rp-1" (PyStr "host-a") init rp s1).
  - vm_compute. reflexivity.
  - exact sample_calls_are_methods.
Defined.

Lemma cache_stays_keyed_witness :
  cache_keyed (steps svc_race sample_calls init)
  ∧ ∀ uuid name rp s',
      _ensure_resource_provider svc_race uuid name
        (steps svc_race sample_calls init) = (Return (Some rp), s') →
      rp_uuid rp = uuid.
Proof.
  apply (cache_stays_keyed svc_race sample_calls init).
  - apply map_Forall_empty.
  - exact sample_calls_are_methods.
Defined.

Lemma circuit_trips_on_configuration_faults_only_witness :
  _disabled (steps svc_flaky sample_calls init) = _disabled init.
Proof.
  apply (circuit_trips_on_configuration_faults_only svc_flaky sample_calls init).
  - intros [|? [|? ?]] [?|? ?]; reflexivity.
  - exact sample_calls_are_methods.
Defined.

Lemma ensure_trip_at_fetch_skips_create_witness :
  _ensure_resource_provider svc_no_endpoint "rp-1" (PyStr "host-a") init
  = (Return None,
     set_disabled true
       (add_log (LogWarning msg_endpoint_not_found)
          (record_call (GET "/resource_providers/rp-1") init)))
  ∧ calls (snd (_ensure_resource_provider svc_no_endpoint "rp-1"
                  (PyStr "host-a") init))
    = [GET "/resource_providers/rp-1"].
Proof.
  exact (ensure_trip_at_fetch_skips_create svc_no_endpoint "rp-1"
           (PyStr "host-a") init EndpointNotFound
           eq_refl eq_refl eq_refl (or_introl eq_refl)).
Defined.

Lemma ensure_creates_after_failed_fetch_witness :
  let rp := mkResourceProvider "rp-7" (PyStr "host-g") (PyInt 1) in
  let s' := snd (_ensure_resource_provider svc_fetch_broken "rp-7"
                   (PyStr "host-g") init) in
  fst (_ensure_resource_provider svc_fetch_broken "rp-7" (PyStr "host-g") init)
  = Return (Some rp)
  ∧ _resource_providers s' = <["rp-7" := rp]> ∅
  ∧ calls s' = [GET "/resource_providers/rp-7";
                POST "/resource_providers" (create_payload "rp-7" (PyStr "host-g"))].
Proof.
  apply (ensure_creates_after_failed_fetch svc_fetch_broken "rp-7"
           (PyStr "host-g") init
           (mkResponse 201 (Some (create_payload "rp-7" (PyStr "host-g"))) ""));
    try reflexivity.
  right. exists (mkResponse 500 None "internal error").
  split; [reflexivity|discriminate].
Defined.

Lemma ensure_found_ignores_name_witness :
  let rp := mkResourceProvider "rp-2" (PyStr "host-b") (PyInt 4) in
  _ensure_resource_provider svc_found "rp-2" (PyStr "another-name") init
  = (Return (Some rp),
     store "rp-2" rp (record_call (GET "/resource_providers/rp-2") init))
  ∧ calls (snd (_ensure_resource_provider svc_found "rp-2"
                  (PyStr "another-name") init))
    = [GET "/resource_providers/rp-2"].
Proof.
  apply (ensure_found_ignores_name svc_found "rp-2" (PyStr "another-name") init
           (mkResponse 200 (Some (provider_body "host-b" 4)) "")
           (provider_body "host-b" 4));
    vm_compute; reflexivity.
Defined.

Lemma ensure_absent_is_logged_witness :
  (length (log init)
   < length (log (snd (_ensure_resource_provider svc_broken "rp-6" PyNone init))))%nat.
Proof.
  apply (ensure_absent_is_logged svc_broken "rp-6" PyNone init);
    vm_compute; reflexivity.
Defined.
